(** * Sweetify backend: inventory, cart and connection supervision

    A shallow embedding of the request handlers of the Sweetify backend
    (routes/sweetRoutes.js, routes/cartRoutes.js with its sync variant,
    routes/authRoutes.js and the connection supervisor of app.js) and
    the properties they satisfy.

    Conventions of the embedding:
    - a JavaScript value is a term of [value]; the numeric domain is the
      integers together with NaN (fractions, exponents, radix prefixes and
      infinities are outside the development, and the numeral scanner
      below recognises signed decimal integers only);
    - a JavaScript exception is the [Throw] case of [result]; a handler's
      [try]/[catch] is [catch];
    - the database is explicit state: the sweets collection is a finite
      map from ObjectId strings to documents, the carts collection a
      finite map from user ids to carts;
    - a single MongoDB command ([findOneAndUpdate], [findById], [save])
      is one atomic step; concurrency between requests is the
      interleaving of such steps. *)

From Stdlib Require Import ZArith QArith Qround Lia Lqa Ascii String.
From stdpp Require Import base option list gmap strings pretty.

Set Warnings "-register-all".
Close Scope Q_scope.
Open Scope string_scope.
Open Scope list_scope.
Open Scope Z_scope.

(** ** JavaScript values *)

Module JS.

Inductive num := NaN | Int (z : Z).

Inductive value :=
| VUndef
| VNull
| VBool (b : bool)
| VNum (n : num)
| VStr (s : string)
| VObj (fs : list (string * value))
| VArr (xs : list value).

Inductive result (A : Type) :=
| Ok (a : A)
| Throw (e : string).
Arguments Ok {A} a.
Arguments Throw {A} e.

Instance result_bind : MBind result := fun A B k r =>
  match r with
  | Ok a => k a
  | Throw e => Throw e
  end.

(** [try { r } catch (err) { h }] *)
Definition catch {A} (r : result A) (h : string -> A) : A :=
  match r with
  | Ok a => a
  | Throw e => h e
  end.

Fixpoint mapM {A B} (f : A -> result B) (l : list A) : result (list B) :=
  match l with
  | [] => Ok []
  | a :: l' => b ← f a; bs ← mapM f l'; Ok (b :: bs)
  end.

(** ToBoolean *)
Definition num_truthy (n : num) : bool :=
  match n with
  | NaN => false
  | Int z => negb (z =? 0)
  end.

Definition truthy (v : value) : bool :=
  match v with
  | VUndef | VNull => false
  | VBool b => b
  | VNum n => num_truthy n
  | VStr s => negb (String.eqb s "")
  | VObj _ | VArr _ => true
  end.

(** [a || b] and [a && b]; the right operand is only consulted when the
    left one does not decide. *)
Definition or_ (a : value) (b : result value) : result value :=
  if truthy a then Ok a else b.

Definition and_ (a : value) (b : result value) : result value :=
  if truthy a then b else Ok a.

(** [v === s] for a string literal [s] *)
Definition is_string (v : value) (s : string) : bool :=
  match v with
  | VStr t => String.eqb t s
  | _ => false
  end.

(** [n || d] for a number [n] and a default [d]. *)
Definition or_default (n : num) (d : Z) : Z :=
  match n with
  | Int z => if z =? 0 then d else z
  | NaN => d
  end.

(** Property read [o.k]: a TypeError on [undefined] and [null], the own
    field of an object, and [undefined] otherwise (none of the keys read by
    the handlers is a built-in property of a string, number or array). *)
Fixpoint field (k : string) (fs : list (string * value)) : value :=
  match fs with
  | [] => VUndef
  | (k', v) :: r => if String.eqb k k' then v else field k r
  end.

Definition get (o : value) (k : string) : result value :=
  match o with
  | VUndef | VNull => Throw "TypeError"
  | VObj fs => Ok (field k fs)
  | _ => Ok VUndef
  end.

(** [o.k = v] on a plain object. *)
Fixpoint has_field (k : string) (fs : list (string * value)) : bool :=
  match fs with
  | [] => false
  | (k', _) :: r => String.eqb k k' || has_field k r
  end.

Fixpoint overwrite (k : string) (v : value) (fs : list (string * value))
  : list (string * value) :=
  match fs with
  | [] => []
  | (k', v') :: r =>
      (k', if String.eqb k k' then v else v') :: overwrite k v r
  end.

Definition set_field (k : string) (v : value) (fs : list (string * value))
  : list (string * value) :=
  if has_field k fs then overwrite k v fs else fs ++ [(k, v)].

(** ** Numerals *)

Definition is_space (c : ascii) : bool :=
  let n := nat_of_ascii c in
  (n =? 32)%nat || ((9 <=? n)%nat && (n <=? 13)%nat).

Definition digit_of (c : ascii) : option Z :=
  let n := nat_of_ascii c in
  if ((48 <=? n)%nat && (n <=? 57)%nat)%bool
  then Some (Z.of_nat n - 48) else None.

Fixpoint drop_spaces (s : string) : string :=
  match s with
  | String c r => if is_space c then drop_spaces r else s
  | EmptyString => s
  end.

(** Digits read so far are accumulated in [acc]; trailing white space is
    allowed, anything else makes the numeral NaN. *)
Fixpoint scan_digits (acc : Z) (s : string) : num :=
  match s with
  | EmptyString => Int acc
  | String c r =>
      match digit_of c with
      | Some d => scan_digits (10 * acc + d) r
      | None => if String.eqb (drop_spaces s) "" then Int acc else NaN
      end
  end.

Definition scan_unsigned (s : string) : num :=
  match s with
  | String c _ =>
      match digit_of c with
      | Some _ => scan_digits 0 s
      | None => NaN
      end
  | EmptyString => NaN
  end.

Definition num_opp (n : num) : num :=
  match n with
  | NaN => NaN
  | Int z => Int (- z)
  end.

(** StringToNumber, on signed decimal integers. *)
Definition StringToNumber (s : string) : num :=
  match drop_spaces s with
  | EmptyString => Int 0
  | String "+" r => scan_unsigned r
  | String "-" r => num_opp (scan_unsigned r)
  | t => scan_unsigned t
  end.

Definition join (sep : string) (l : list string) : string :=
  match l with
  | [] => ""
  | x :: r => fold_left (fun acc y => acc +:+ sep +:+ y) r x
  end.

(** [String(v)] *)
Fixpoint ToString (v : value) : string :=
  match v with
  | VUndef => "undefined"
  | VNull => "null"
  | VBool b => if b then "true" else "false"
  | VNum NaN => "NaN"
  | VNum (Int z) => pretty z
  | VStr s => s
  | VObj _ => "[object Object]"
  | VArr xs =>
      join "," (map (fun x => match x with
                              | VUndef | VNull => ""
                              | _ => ToString x
                              end) xs)
  end.

(** [Number(v)] *)
Definition ToNumber (v : value) : num :=
  match v with
  | VUndef => NaN
  | VNull => Int 0
  | VBool b => Int (if b then 1 else 0)
  | VNum n => n
  | VStr s => StringToNumber s
  | VObj _ => NaN
  | VArr _ => StringToNumber (ToString v)
  end.

(** What [JSON.stringify] keeps of a value: a field whose value is
    [undefined] is left out of an object, [undefined] inside an array and
    NaN become [null]. *)
Fixpoint to_json (v : value) : value :=
  match v with
  | VNum NaN => VNull
  | VObj fs =>
      VObj ((fix fields (fs : list (string * value)) :=
               match fs with
               | [] => []
               | (k, x) :: r =>
                   match x with
                   | VUndef => fields r
                   | _ => (k, to_json x) :: fields r
                   end
               end) fs)
  | VArr xs =>
      VArr (map (fun x => match x with
                          | VUndef => VNull
                          | _ => to_json x
                          end) xs)
  | _ => v
  end.

(** The fields that [JSON.stringify] writes for an object. *)
Definition json_fields (fs : list (string * value)) : list (string * value) :=
  match to_json (VObj fs) with
  | VObj r => r
  | _ => []
  end.

(** An object without its field [k]. *)
Definition without (k : string) (fs : list (string * value))
  : list (string * value) :=
  filter (fun kv => fst kv <> k) fs.

End JS.
Import JS.

(** ** HTTP responses *)

Record response := { status : Z; body : value }.

(** [res.status(code).json({ message })] *)
Definition reply (code : Z) (message : string) : response :=
  {| status := code; body := to_json (VObj [("message", VStr message)]) |}.

(** ** The collections *)

(** Modelled from the spec: the schema models/Sweet.js is not among the
    sources. Per the data model a catalog item has an integer [stock]
    next to its other attributes (name, category, price, owner, ...),
    kept here in the order of the stored document. The key of the
    document in the collection is its [_id]. *)
Record Sweet := { stock : Z; attrs : list (string * value) }.

Definition toObject (id : string) (s : Sweet) : list (string * value) :=
  ("_id", VStr id) :: attrs s ++ [("stock", VNum (Int (stock s)))].

(** Modelled from the spec: the schema models/Cart.js is not among the
    sources. Per the data model a cart belongs to one user and is an
    ordered list of lines, each with the reference of a sweet (its
    ObjectId, held here as its string) and a quantity. *)
Record CartLine := { item : string; line_quantity : Z }.

(** [mongoose.Types.ObjectId] belongs to the bson library: [isValid s] is
    [ObjectId.isValid(s)], and [ObjectId s] is the string form
    [String(new ObjectId(s))] of the identifier built from [s]. *)
Class ObjectIdLib := {
  isValid : string -> bool;
  ObjectId : string -> string
}.

(** ** routes/cartRoutes.js

    The routes run behind the [protect] middleware, which is not among
    the sources: the handlers below start where [req.user] is known, and
    take the id of that user as [user]. *)

Module Cart.

Record raw_entry := { itemId : value; quantity : num }.

(** [o.itemId || o.item || o._id || (o.item && o.item._id)] *)
Definition maybeId (o : value) : result value :=
  a ← get o "itemId";
  or_ a (b ← get o "item";
         or_ b (c ← get o "_id";
                or_ c (d ← get o "item"; and_ d (get d "_id")))).

(** [Number(o.quantity || o.qty || 1)] *)
Definition quantity_of (o : value) : result num :=
  a ← get o "quantity";
  q ← or_ a (b ← get o "qty"; or_ b (Ok (VNum (Int 1))));
  Ok (ToNumber q).

Definition normalizePayload (body : value) : result (list raw_entry) :=
  if negb (truthy body) then Ok []
  else
    items ← get body "items";
    match items with
    | VArr xs =>
        mapM (fun it =>
                id ← maybeId it;
                q ← quantity_of it;
                Ok {| itemId := id; quantity := q |}) xs
    | _ =>
        id ← maybeId body;
        if truthy id
        then q ← quantity_of body; Ok [{| itemId := id; quantity := q |}]
        else Ok []
    end.

(** [Math.max(1, Number(it.quantity || 1))] *)
Definition floor_quantity (q : num) : Z :=
  Z.max 1 (or_default q 1).

Section Handlers.
Context `{Ids : ObjectIdLib}.

(** State of the database seen by the cart routes. *)
Record db := { sweets : gmap string Sweet; carts : gmap string (list CartLine) }.

(** [Sweet.findById(id)] *)
Definition findById (d : db) (id : string) : option Sweet :=
  sweets d !! ObjectId id.

(** [cart.save()] for the cart of [user]: the items replace the stored
    ones (last writer wins). *)
Definition save (d : db) (user : string) (items : list CartLine) : db :=
  {| sweets := sweets d; carts := <[user := items]> (carts d) |}.

(** [cart.populate("items.item")] followed by [res.json({ cart })] *)
Definition populated (d : db) (user : string) (items : list CartLine) : value :=
  VObj [("cart",
         VObj [("user", VStr user);
               ("items",
                VArr (map (fun l =>
                             VObj [("item",
                                    match sweets d !! item l with
                                    | Some s => VObj (toObject (item l) s)
                                    | None => VNull
                                    end);
                                   ("quantity", VNum (Int (line_quantity l)))])
                          items))])].

Definition cart_reply (code : Z) (d : db) (user : string)
    (items : list CartLine) : response :=
  {| status := code; body := to_json (populated d user items) |}.

(** The validation loop of [POST /api/cart]: the first entry that fails a
    check ends the request; otherwise the entries are collected as
    [(idStr, quantity)]. *)
Fixpoint validate_add (d : db) (raw : list raw_entry)
  : response + list (string * Z) :=
  match raw with
  | [] => inr []
  | it :: rest =>
      if negb (truthy (itemId it))
      then inl (reply 400 "Missing itemId for an item")
      else
        let idStr := ToString (itemId it) in
        if negb (isValid idStr)
        then inl (reply 400 ("Invalid itemId: " +:+ idStr))
        else
          match findById d idStr with
          | None => inl (reply 404 ("Item not found: " +:+ idStr))
          | Some _ =>
              match validate_add d rest with
              | inl r => inl r
              | inr normalized =>
                  inr ((idStr, floor_quantity (quantity it)) :: normalized)
              end
          end
  end.

(** One round of the merge loop over an existing cart. *)
Definition merge_one (items : list CartLine) (e : string * Z)
  : list CartLine :=
  let '(id, q) := e in
  match list_find (fun ci => item ci = id) items with
  | Some (idx, ci) =>
      <[idx := {| item := item ci;
                  line_quantity :=
                    or_default (Int (line_quantity ci)) 0 + q |}]> items
  | None => items ++ [{| item := ObjectId id; line_quantity := q |}]
  end.

Definition merge (items : list CartLine) (normalized : list (string * Z))
  : list CartLine :=
  fold_left merge_one normalized items.

(** [router.post("/")]: add or merge items into the cart of [user]. *)
Definition add (d : db) (user : string) (body : value) : response * db :=
  catch
    (raw ← normalizePayload body;
     Ok (match raw with
         | [] => (reply 400 "No items provided", d)
         | _ =>
             match validate_add d raw with
             | inl r => (r, d)
             | inr normalized =>
                 match carts d !! user with
                 | None =>
                     let itemsForCart :=
                       map (fun e => {| item := ObjectId (fst e);
                                        line_quantity := snd e |}) normalized in
                     let d' := save d user itemsForCart in
                     (cart_reply 201 d' user itemsForCart, d')
                 | Some items =>
                     let items' := merge items normalized in
                     let d' := save d user items' in
                     (cart_reply 200 d' user items', d')
                 end
             end
         end))
    (fun _ => (reply 500 "Failed to update cart", d)).

(** The validation loop of [PUT /api/cart]. *)
Fixpoint validate_replace (d : db) (raw : list raw_entry)
  : response + list CartLine :=
  match raw with
  | [] => inr []
  | it :: rest =>
      if negb (truthy (itemId it))
      then inl (reply 400 "Missing itemId")
      else
        let idStr := ToString (itemId it) in
        if negb (isValid idStr)
        then inl (reply 400 "Invalid itemId")
        else
          match findById d idStr with
          | None => inl (reply 404 ("Item not found: " +:+ idStr))
          | Some _ =>
              match validate_replace d rest with
              | inl r => inl r
              | inr normalized =>
                  inr ({| item := ObjectId idStr;
                          line_quantity := floor_quantity (quantity it) |}
                       :: normalized)
              end
          end
  end.

(** [router.put("/")]: replace the items of the cart of [user]. *)
Definition replace (d : db) (user : string) (body : value) : response * db :=
  catch
    (raw ← normalizePayload body;
     Ok (match validate_replace d raw with
         | inl r => (r, d)
         | inr normalized =>
             let d' := save d user normalized in
             (cart_reply 200 d' user normalized, d')
         end))
    (fun _ => (reply 500 "Failed to replace cart", d)).

(** [router.delete("/:itemId")]: drop the line of one sweet. *)
Definition remove (d : db) (user : string) (id : string) : response * db :=
  if negb (isValid id) then (reply 400 "Invalid itemId", d)
  else
    match carts d !! user with
    | None => (reply 404 "Cart not found", d)
    | Some items =>
        let items' := filter (fun it => item it <> id) items in
        let d' := save d user items' in
        (cart_reply 200 d' user items', d')
    end.

(** *** What the properties below speak of *)

(** An entry that passes the three checks of the validation loop. *)
Definition passes (d : db) (it : raw_entry) : Prop :=
  truthy (itemId it) = true /\
  isValid (ToString (itemId it)) = true /\
  is_Some (findById d (ToString (itemId it))).

(** The payload [{ itemId: X, quantity: 2 }]. *)
Definition two_of (X : string) : value :=
  VObj [("itemId", VStr X); ("quantity", VNum (Int 2))].

(** The lines that the cart of [user] has for the sweet [X]. *)
Definition lines_of (d : db) (user X : string) : list CartLine :=
  filter (fun l => item l = X) (default [] (carts d !! user)).

Definition add_twice (d : db) (user X : string) : db :=
  snd (add (snd (add d user (two_of X))) user (two_of X)).

Definition replace_twice (d : db) (user X : string) : db :=
  snd (replace (snd (replace d user (two_of X))) user (two_of X)).

End Handlers.

(** The payload [{ items: [{ item: { _id: "A" }, quantity: 3 }] }]. *)
Definition nested_item : value :=
  VObj [("items",
         VArr [VObj [("item", VObj [("_id", VStr "A")]);
                     ("quantity", VNum (Int 3))]])].

End Cart.

(** ** routes/sweetRoutes.js

    Purchase and restock run behind [protect] (and [isAdmin] for
    restock), which are not among the sources: the handlers below start
    after them. The [:id] of the route is taken as the key of the
    document it casts to. *)

Module Sweets.

(** *** Role of the caller *)

Fixpoint split_on (sep : ascii) (cur : string) (s : string) : list string :=
  match s with
  | EmptyString => [cur]
  | String c r =>
      if Ascii.eqb c sep then cur :: split_on sep "" r
      else split_on sep (cur +:+ String c "") r
  end.

(** [s.split(" ")] *)
Definition split (s : string) : list string := split_on " " "" s.

Section Role.
(** [jwt.verify(token, process.env.JWT_SECRET)] of the jsonwebtoken
    library: the decoded payload, or an exception for a token that is
    malformed, expired or wrongly signed. *)
Variable jwt_verify : string -> result value.

(** [authorization] is the header of the request, when it has one. *)
Definition requestIsAdmin (authorization : option string) : value :=
  catch
    (let auth := default "" authorization in
     let token :=
       if String.prefix "Bearer " auth
       then match split auth !! 1%nat with
            | Some t => VStr t
            | None => VUndef
            end
       else VNull in
     if negb (truthy token) then Ok (VBool false)
     else
       payload ← jwt_verify (ToString token);
       and_ payload
         (role ← get payload "role";
          Ok (VBool (is_string role "admin"))))
    (fun _ => VBool false).

End Role.

(** *** Redaction of the stock *)

Definition hideStockForNonAdmin (sweets : list (list (string * value)))
    (isAdmin : value) : list (list (string * value)) :=
  if truthy isAdmin then sweets
  else map (fun s => set_field "stock" VUndef s) sweets.

(** [res.status(200).json(out)] *)
Definition listing (out : list (list (string * value))) : response :=
  {| status := 200; body := to_json (VArr (map VObj out)) |}.

Section Listing.
Variable jwt_verify : string -> result value.
(** [Sweet.find(filter).populate("createdBy", "username email")]: the
    documents selected by the filter built from the query string, as
    [(_id, document)], the attribute [createdBy] already resolved. *)
Variable find : value -> gmap string Sweet -> list (string * Sweet).

(** [router.get("/")] and [router.get("/search")] *)
Definition getSweets (db : gmap string Sweet) (query : value)
    (authorization : option string) : response :=
  let sweets := map (fun d => toObject (fst d) (snd d)) (find query db) in
  let isAdmin := requestIsAdmin jwt_verify authorization in
  listing (hideStockForNonAdmin sweets isAdmin).

End Listing.

(** *** Purchase and restock *)

Inductive outcome :=
| Purchased (id : string) (qty : Z) (sweet : Sweet)
| Restocked (id : string) (sweet : Sweet)
| NotFound
| InsufficientStock (id : string) (available : Z)
| ValidationError (message : string)
| InternalError.


Definition with_stock (s : Sweet) (n : Z) : Sweet :=
  {| stock := n; attrs := attrs s |}.

(** [Sweet.findOneAndUpdate({ _id: id, stock: { $gte: qty } },
    { $inc: { stock: -qty } }, { new: true })]: one atomic command. *)
Definition findOneAndUpdate (db : gmap string Sweet) (id : string) (qty : Z)
  : option Sweet * gmap string Sweet :=
  match db !! id with
  | Some s =>
      if qty <=? stock s
      then let s' := with_stock s (stock s - qty) in (Some s', <[id := s']> db)
      else (None, db)
  | None => (None, db)
  end.

(** [Sweet.findByIdAndUpdate(id, { $inc: { stock: qty } }, { new: true })] *)
Definition findByIdAndUpdate (db : gmap string Sweet) (id : string) (qty : Z)
  : option Sweet * gmap string Sweet :=
  match db !! id with
  | Some s =>
      let s' := with_stock s (stock s + qty) in (Some s', <[id := s']> db)
  | None => (None, db)
  end.

(** [const { quantity = 1 } = req.body]: the default replaces
    [undefined] only. *)
Definition quantity_or_1 (body : value) : result value :=
  q ← get body "quantity";
  Ok (match q with VUndef => VNum (Int 1) | _ => q end).

(** A purchase request in flight. Between the conditional write and the
    diagnostic read other requests may run. *)
Inductive request :=
| Received (id : string) (body : value)
| NoMatch (id : string)
| Finished (o : outcome).

(** [const qty = Number(quantity) || 1] *)
Definition requested (body : value) : result Z :=
  quantity ← quantity_or_1 body;
  Ok (or_default (ToNumber quantity) 1).

(** The handler up to and including the conditional write. *)
Definition purchase_write (db : gmap string Sweet) (id : string) (body : value)
  : request * gmap string Sweet :=
  catch
    (qty ← requested body;
     if qty <=? 0
     then Ok (Finished (ValidationError "Quantity must be >= 1"), db)
     else
       Ok (match findOneAndUpdate db id qty with
           | (Some sweet, db') => (Finished (Purchased id qty sweet), db')
           | (None, db') => (NoMatch id, db')
           end))
    (fun _ => (Finished InternalError, db)).

(** The diagnostic read [Sweet.findById(id).select("stock")]. *)
Definition purchase_read (db : gmap string Sweet) (id : string) : outcome :=
  match db !! id with
  | None => NotFound
  | Some maybe => InsufficientStock id (stock maybe)
  end.

(** One storage command of a request. *)
Definition advance (db : gmap string Sweet) (r : request)
  : request * gmap string Sweet :=
  match r with
  | Received id body => purchase_write db id body
  | NoMatch id => (Finished (purchase_read db id), db)
  | Finished o => (r, db)
  end.

(** [router.post("/:id/purchase")] run alone: the write and, when it
    matched nothing, the read that follows it. *)
Definition purchase (db : gmap string Sweet) (id : string) (body : value)
  : outcome * gmap string Sweet :=
  match purchase_write db id body with
  | (Finished o, db') => (o, db')
  | (NoMatch id', db') => (purchase_read db' id', db')
  | (Received _ _, db') => (InternalError, db')
  end.

(** [router.post("/:id/restock")] *)
Definition restock (db : gmap string Sweet) (id : string) (body : value)
  : outcome * gmap string Sweet :=
  catch
    (quantity ← get body "quantity";
     let qty := ToNumber quantity in
     match qty with
     | Int q =>
         if negb (truthy quantity) || (q <=? 0)
         then Ok (ValidationError "Please provide a valid quantity > 0", db)
         else
           Ok (match findByIdAndUpdate db id q with
               | (Some sweet, db') => (Restocked id sweet, db')
               | (None, db') => (NotFound, db')
               end)
     | NaN => Ok (ValidationError "Please provide a valid quantity > 0", db)
     end)
    (fun _ => (InternalError, db)).

(** *** Requests in flight

    The server handles many requests at once; what one request does
    between two storage commands does not touch the collection, so a run
    of the server is an interleaving of the commands of its requests. *)

Definition finished (r : request) : bool :=
  match r with
  | Finished _ => true
  | _ => false
  end.

Inductive step : gmap string Sweet * list request ->
                 gmap string Sweet * list request -> Prop :=
| step_request db rs i r r' db' :
    rs !! i = Some r ->
    finished r = false ->
    advance db r = (r', db') ->
    step (db, rs) (db', <[i := r']> rs).


(** What a request has bought of the sweet [id]. *)
Definition bought (id : string) (r : request) : Z :=
  match r with
  | Finished (Purchased id' qty _) => if decide (id' = id) then qty else 0
  | _ => 0
  end.


(** Storage commands a request still has to issue, at most. *)
Definition pending (r : request) : nat :=
  match r with
  | Received _ _ => 2
  | NoMatch _ => 1
  | Finished _ => 0
  end.

Definition all_pending (rs : list request) : nat :=
  foldr (fun r acc => (pending r + acc)%nat) 0%nat rs.


End Sweets.

(** ** app.js: connection supervision and the availability gate *)

Module App.

Definition baseDelay : Z := 2000.
(** Declared by [connectWithRetry] and never read. *)
Definition maxAttempts : Z := 10.

(** [Math.min(baseDelay * Math.pow(2, attempt - 1), 60000)] *)
Definition backoff (attempt : Z) : Z :=
  Z.min (baseDelay * 2 ^ (attempt - 1)) 60000.

(** [Math.round(x)] is the floor of [x + 1/2]. *)
Definition round (x : Q) : Z := Qfloor (x + (1 # 2))%Q.

(** [Math.round(Math.random() * 1000)], for the draw [random]. *)
Definition jitter (random : Q) : Z := round (random * 1000)%Q.

(** The supervisor: the flag read by the gate, the attempt counter and
    whether the [while (true)] loop is still running. *)
Record supervisor := { dbConnected : bool; attempt : Z; looping : bool }.

Definition start : supervisor :=
  {| dbConnected := false; attempt := 0; looping := true |}.

(** One round of the loop. [connected] tells whether [mongoose.connect]
    resolved, [random] is the value of [Math.random()]; the result carries
    the time slept before the next round, if there is one. *)
Definition round_of_loop (connected : bool) (random : Q) (s : supervisor)
  : supervisor * option Z :=
  let attempt := attempt s + 1 in
  if connected
  then ({| dbConnected := true; attempt := attempt; looping := false |}, None)
  else
    let delay := backoff attempt in
    let wait := delay + jitter random in
    ({| dbConnected := false; attempt := attempt; looping := true |},
     Some wait).

(** [connectWithRetry] against a finite prefix of what the environment
    answers: the state reached and the waits slept, in order. *)
Fixpoint connectWithRetry (env : list (bool * Q)) (s : supervisor)
  : supervisor * list Z :=
  match env with
  | [] => (s, [])
  | (connected, random) :: env' =>
      if looping s
      then
        let '(s', wait) := round_of_loop connected random s in
        let '(s'', waits) := connectWithRetry env' s' in
        (s'', option_list wait ++ waits)
      else (s, [])
  end.

Record request := {
  method : string;
  path : list string;
  authorization : option string;
  payload : value
}.


Section Server.
(** The state of the database, and the routers mounted under [/api]
    (with the final 404 handler behind them). *)
Context {Db : Type}.
Variable routes : request -> Db -> response * Db.




End Server.
End App.

(** A concrete ObjectId library for the examples: an identifier is valid
    when it is made of 24 hexadecimal digits, and its string form is
    written with lower-case digits. *)
Module Hex24.

Definition is_hex (c : ascii) : bool :=
  let n := nat_of_ascii c in
  ((48 <=? n) && (n <=? 57) || (65 <=? n) && (n <=? 70)
   || (97 <=? n) && (n <=? 102))%nat.

Definition lower (c : ascii) : ascii :=
  let n := nat_of_ascii c in
  if ((65 <=? n) && (n <=? 90))%nat then ascii_of_nat (n + 32) else c.

Fixpoint all_hex (s : string) : bool :=
  match s with
  | EmptyString => true
  | String c r => is_hex c && all_hex r
  end.

Fixpoint lowercase (s : string) : string :=
  match s with
  | EmptyString => EmptyString
  | String c r => String (lower c) (lowercase r)
  end.

Definition lib : ObjectIdLib :=
  {| isValid s := (String.length s =? 24)%nat && all_hex s;
     ObjectId := lowercase |}.

End Hex24.

(** ** Sample data *)

Module Examples.
Import Cart.



(** A catalog with one sweet, and the cart of [ana] holding one of it. *)
Definition ladoo : string := "64b7f0a1c2d3e4f5a6b7c8d9".

Definition shop : db :=
  {| sweets := {[ladoo := {| stock := 10; attrs := [("name", VStr "Ladoo")] |}]};
     carts := {["ana" := [{| item := ladoo; line_quantity := 1 |}]]} |}.



End Examples.

(** ** Reading the cart, and measures of a cart *)

Module CartRead.
Import Cart.

(** [router.get("/")]: [Cart.findOne({ user }).populate("items.item")]
    and [res.json({ cart })]; the cart is [null] when the user has none. *)
Definition getCart (d : db) (user : string) : response :=
  match carts d !! user with
  | Some items => cart_reply 200 d user items
  | None => {| status := 200; body := to_json (VObj [("cart", VNull)]) |}
  end.



(** Every line of every cart has a quantity of at least 1. *)
Definition quantities_positive (d : db) : Prop :=
  forall u items, carts d !! u = Some items ->
                  Forall (fun l => 1 <= line_quantity l) items.


(** What the validation loops keep of a batch that passes. *)
Definition line_of `{Ids : ObjectIdLib} (it : raw_entry) : CartLine :=
  {| item := ObjectId (ToString (itemId it));
     line_quantity := floor_quantity (quantity it) |}.

End CartRead.

(** ** routes/cartRoutes.js, the sync variant: [coerceCartItems] *)

Module Sync.


Section Coerce.
(** [new mongoose.Types.ObjectId(s)], as the string form of the
    identifier, or the exception of the bson library for a string it
    does not accept. *)
Variable construct : string -> result string.




End Coerce.

(** An entry that carries an id under one of the three names. *)
Definition has_id (it : value) : Prop :=
  exists fs, it = VObj fs /\
    (truthy (field "item" fs) = true \/ truthy (field "itemId" fs) = true \/
     truthy (field "_id" fs) = true).


End Sync.

(** ** routes/sweetRoutes.js: update and delete *)

Module SweetsAdmin.

(** [req.user], as the [protect] middleware leaves it. *)
Record user := { _id : string; role : string }.


Section Update.
(** [Sweet.findByIdAndUpdate(id, req.body, { new: true })] on the stored
    document: the document after mongoose has cast the body against the
    schema and applied it, or the cast error. *)
Variable apply_update : value -> Sweet -> result Sweet.


End Update.


End SweetsAdmin.

(** ** routes/authRoutes.js

    The model models/User.js is not among the sources: what the handlers
    call on it is taken as parameters. *)

Module Auth.

(** A stored user, with the fields the handlers read. *)
Record User := { _id : string; username : value; email : value; role : value }.

Section Handlers.
(** [User.findOne({ email })] on the collection. *)
Variable findOne : value -> list User -> option User.
(** [User.create({ username, email, password, role })]: the stored
    document, or the validation error. *)
Variable create : value -> value -> value -> value -> result User.
(** [user.matchPassword(password)] *)
Variable matchPassword : User -> value -> result bool.
(** [jwt.sign(payload, process.env.JWT_SECRET, { expiresIn: "7d" })] *)
Variable sign : value -> string.

Definition generateToken (id : string) (role : value) : string :=
  sign (VObj [("id", VStr id); ("role", role)]).

(** The body both handlers answer with on success. *)
Definition signed_in (code : Z) (message : string) (user : User) : response :=
  {| status := code;
     body := to_json
               (VObj [("message", VStr message);
                      ("user", VObj [("id", VStr (_id user));
                                     ("username", username user);
                                     ("email", email user);
                                     ("role", role user)]);
                      ("token",
                       VStr (generateToken (_id user) (role user)))]) |}.


(** [router.post("/login")] *)
Definition login (users : list User) (body : value) : response :=
  catch
    (email ← get body "email";
     password ← get body "password";
     match findOne email users with
     | None => Ok (reply 400 "Invalid email or password")
     | Some user =>
         isMatch ← matchPassword user password;
         if negb isMatch then Ok (reply 400 "Invalid email or password")
         else Ok (signed_in 200 "Login successful" user)
     end)
    (fun _ => reply 500 "Server error").

End Handlers.
End Auth.

(** ** More sample data *)

Module MoreExamples.

(** A user collection looked up by the string of the e-mail, a
    password check that compares with the user name, and a token that is
    the string of the role. *)
Definition by_email (e : value) (users : list Auth.User) : option Auth.User :=
  snd <$> list_find (fun u => ToString (Auth.email u) = ToString e) users.


Definition same_as_name (u : Auth.User) (password : value) : result bool :=
  Ok (String.eqb (ToString (Auth.username u)) (ToString password)).

Definition role_token (payload : value) : string :=
  ToString (field "role" match payload with VObj fs => fs | _ => [] end).

Definition ana_signs_up : value :=
  VObj [("username", VStr "ana"); ("email", VStr "ana@sweets.in");
        ("password", VStr "ana"); ("role", VStr "user")].




End MoreExamples.

(** * Properties *)

(** ** Coercions *)

Section Coercions.


Lemma floor_quantity_ge_1 q : 1 <= Cart.floor_quantity q.
Proof. unfold Cart.floor_quantity. lia. Qed.

End Coercions.

(** ** Inventory: purchases in flight *)

Module Ledger.
Import Sweets.




(** What the conditional write can do. *)
Lemma purchase_write_cases db id body r db' :
  purchase_write db id body = (r, db') ->
  (db' = db /\ bought id r = 0 /\
     (r = NoMatch id \/ exists o, r = Finished o /\
        forall id' n, o <> InsufficientStock id' n) /\
     forall id', bought id' r = 0)
  \/ exists s qty,
       db !! id = Some s /\ qty <= stock s /\ 0 < qty /\
       requested body = Ok qty /\
       r = Finished (Purchased id qty (with_stock s (stock s - qty))) /\
       db' = <[id := with_stock s (stock s - qty)]> db.
Proof.
  unfold purchase_write.
  destruct (requested body) as [qty|e] eqn:Hq; simpl.
  - destruct (Z.leb_spec qty 0) as [Hle|Hlt]; simpl.
    + intros [= <- <-]. left. split_and!; try done.
      right. eexists. by split.
    + unfold findOneAndUpdate. destruct (db !! id) as [s|] eqn:Hs.
      * destruct (Z.leb_spec qty (stock s)) as [Hok|Hno].
        -- intros [= <- <-]. right. by exists s, qty.
        -- intros [= <- <-]. left. split_and!; try done. by left.
      * intros [= <- <-]. left. split_and!; try done. by left.
  - intros [= <- <-]. left. split_and!; try done.
    right. eexists. by split.
Qed.


(** A request that has not finished can always issue its next command,
    and doing so brings the run closer to its end. *)
Lemma step_progress db rs i r :
  rs !! i = Some r -> finished r = false ->
  exists st', step (db, rs) st'.
Proof.
  intros Hi Hf. destruct (advance db r) as [r' db'] eqn:Hadv.
  eexists. by eapply step_request.
Qed.

Lemma all_pending_insert rs i r r' :
  rs !! i = Some r ->
  (all_pending (<[i := r']> rs) + pending r = all_pending rs + pending r')%nat.
Proof.
  revert i. induction rs as [|x rs IH]; intros [|i] Hi; simpl in *;
    try discriminate.
  - injection Hi as ->. lia.
  - specialize (IH i Hi). lia.
Qed.

Lemma step_pending st st' :
  step st st' -> (all_pending st'.2 < all_pending st.2)%nat.
Proof.
  intros [db rs i r r' db' Hi Hfin Hadv]. simpl.
  pose proof (all_pending_insert rs i r r' Hi) as Hsum.
  destruct r as [id body|id|o]; simpl in *; [| |done].
  - destruct (purchase_write_cases _ _ _ _ _ Hadv)
      as [(_ & _ & [->|(o & -> & _)] & _)|(s1 & qty & _ & _ & _ & _ & -> & _)];
      simpl in *; lia.
  - injection Hadv as <- <-. simpl in *. lia.
Qed.


End Ledger.

Module LedgerRuns.
Import Sweets Ledger.



End LedgerRuns.

(** ** Inventory: one purchase, one restock *)

Module LedgerCalls.
Import Sweets.










End LedgerCalls.

(** ** Connection supervision *)

Module Supervision.
Import App.

Lemma jitter_range (random : Q) :
  (0 <= random)%Q -> (random < 1)%Q -> 0 <= jitter random <= 1000.
Proof.
  intros Hlo Hhi. unfold jitter, round. split.
  - apply Z.le_trans with (Qfloor (1 # 2)); [done|].
    apply Qfloor_resp_le. lra.
  - apply Z.le_trans with (Qfloor (2001 # 2)); [|done].
    apply Qfloor_resp_le. lra.
Qed.

Lemma backoff_le_cap n : backoff n <= 60000.
Proof. unfold backoff. lia. Qed.

Lemma backoff_monotone n m : 1 <= n -> n <= m -> backoff n <= backoff m.
Proof.
  intros Hn Hm. unfold backoff, baseDelay.
  assert (2 ^ (n - 1) <= 2 ^ (m - 1)) by (apply Z.pow_le_mono_r; lia).
  lia.
Qed.






End Supervision.

(** ** Redaction of the stock *)

Module Redaction.
Import Sweets.

Lemma json_fields_cons k x fs :
  json_fields ((k, x) :: fs) =
    match x with
    | VUndef => json_fields fs
    | _ => (k, to_json x) :: json_fields fs
    end.
Proof. by destruct x. Qed.

Lemma json_fields_overwrite k fs :
  json_fields (overwrite k VUndef fs) = json_fields (without k fs).
Proof.
  induction fs as [|[k' x] fs IH]; [done|].
  simpl. unfold without in *. rewrite filter_cons. simpl.
  destruct (String.eqb_spec k k') as [->|Hne].
  - rewrite decide_False by (by intros []). by rewrite json_fields_cons.
  - rewrite decide_True by congruence.
    rewrite !json_fields_cons, IH. done.
Qed.

Lemma json_fields_snoc_undefined k fs :
  json_fields (fs ++ [(k, VUndef)]) = json_fields fs.
Proof.
  induction fs as [|[k' x] fs IH]; [done|].
  simpl. rewrite !json_fields_cons, IH. done.
Qed.

Lemma without_absent k fs : has_field k fs = false -> without k fs = fs.
Proof.
  induction fs as [|[k' x] fs IH]; [done|]. simpl.
  destruct (String.eqb_spec k k') as [->|Hne]; [done|]. simpl. intros Hfs.
  unfold without in *. rewrite filter_cons. simpl.
  rewrite decide_True by congruence. by rewrite IH.
Qed.

(** Setting a field to [undefined] and serialising is serialising the
    object without the field. *)
Lemma json_fields_hidden k fs :
  json_fields (set_field k VUndef fs) = json_fields (without k fs).
Proof.
  unfold set_field. destruct (has_field k fs) eqn:Hk.
  - apply json_fields_overwrite.
  - by rewrite json_fields_snoc_undefined, without_absent.
Qed.

Lemma has_field_json_without k fs :
  has_field k (json_fields (without k fs)) = false.
Proof.
  induction fs as [|[k' x] fs IH]; [done|].
  unfold without in *. rewrite filter_cons. simpl.
  destruct (decide (k' <> k)) as [Hne|_]; [|done].
  rewrite json_fields_cons.
  destruct x; try done; simpl;
    (destruct (String.eqb_spec k k') as [->|_]; [done|]); by simpl.
Qed.

Lemma field_json_without k k' fs :
  k' <> k ->
  field k' (json_fields (without k fs)) = field k' (json_fields fs).
Proof.
  intros Hne. induction fs as [|[k1 x] fs IH]; [done|].
  unfold without in *. rewrite filter_cons. simpl.
  destruct (decide (k1 <> k)) as [Hk1|Hk1].
  - rewrite !json_fields_cons. destruct x; try done; simpl; by rewrite IH.
  - apply dec_stable in Hk1 as ->. rewrite json_fields_cons.
    destruct x; try done; simpl;
      (destruct (String.eqb_spec k' k); [done|]); done.
Qed.

Lemma to_json_objects (out : list (list (string * value))) :
  to_json (VArr (map VObj out))
  = VArr (map (fun fs => VObj (json_fields fs)) out).
Proof.
  simpl. f_equal. rewrite map_map. by apply map_ext.
Qed.

(** The caller is an admin only when the header carries a token that
    [jwt.verify] accepts and whose payload has the role [admin]. *)
Lemma requestIsAdmin_true jwt_verify authorization :
  truthy (requestIsAdmin jwt_verify authorization) = true ->
  exists auth token payload,
    authorization = Some auth /\
    String.prefix "Bearer " auth = true /\
    split auth !! 1%nat = Some token /\
    jwt_verify token = Ok payload /\
    get payload "role" = Ok (VStr "admin").
Proof.
  unfold requestIsAdmin.
  destruct authorization as [auth|]; simpl; [|done].
  destruct (String.prefix "Bearer " auth) eqn:Hp; [|done].
  destruct (split auth !! 1%nat) as [token|] eqn:Ht; [|done]. simpl.
  destruct (String.eqb_spec token "") as [->|Hne]; simpl; [done|].
  destruct (jwt_verify token) as [payload|e] eqn:Hv; simpl; [|done].
  unfold and_. destruct (truthy payload) eqn:Hpay.
  - destruct payload as [| |b|n|s|fs|xs]; simpl in *; try done.
    destruct (field "role" fs) as [| | | |r| |] eqn:Hr; simpl; try done.
    destruct (String.eqb_spec r "admin") as [->|]; [|done].
    intros _. exists auth, token, (VObj fs). simpl. by rewrite Hr.
  - simpl. by rewrite Hpay.
Qed.

(** C9: in a listing or search answered to a caller who is not an admin,
    every item is the stored item without its [stock] field (the field
    is absent, every other field is as in the answer an admin gets); and
    the role is resolved without ever failing: no header, a header that
    is not a bearer token, an empty token or a token that [jwt.verify]
    rejects all make the caller a non-admin. *)
Theorem stock_hidden_from_non_admins
    (jwt_verify : string -> result value)
    (find : value -> gmap string Sweet -> list (string * Sweet))
    (db : gmap string Sweet) (query : value) (authorization : option string) :
  truthy (requestIsAdmin jwt_verify authorization) = false ->
  getSweets jwt_verify find db query authorization
  = {| status := 200;
       body := VArr (map (fun d => VObj (json_fields
                                           (without "stock"
                                              (toObject (fst d) (snd d)))))
                       (find query db)) |} /\
  (forall id s,
     has_field "stock" (json_fields (without "stock" (toObject id s))) = false /\
     forall k, k <> "stock" ->
       field k (json_fields (without "stock" (toObject id s)))
       = field k (json_fields (toObject id s))) /\
  (forall auth token e,
     requestIsAdmin jwt_verify None = VBool false /\
     (String.prefix "Bearer " auth = false ->
        requestIsAdmin jwt_verify (Some auth) = VBool false) /\
     (split auth !! 1%nat = Some "" ->
        requestIsAdmin jwt_verify (Some auth) = VBool false) /\
     (split auth !! 1%nat = Some token -> jwt_verify token = Throw e ->
        requestIsAdmin jwt_verify (Some auth) = VBool false)) /\
  (forall credential,
     truthy (requestIsAdmin jwt_verify credential) = true ->
     exists auth token payload,
       credential = Some auth /\
       String.prefix "Bearer " auth = true /\
       split auth !! 1%nat = Some token /\
       jwt_verify token = Ok payload /\
       get payload "role" = Ok (VStr "admin")).
Proof.
  intros Hrole. split_and!; [| | |apply requestIsAdmin_true].
  - unfold getSweets, listing, hideStockForNonAdmin. rewrite Hrole.
    rewrite to_json_objects, !map_map. do 2 f_equal.
    apply map_ext. intros d. by rewrite json_fields_hidden.
  - intros id s. split; [apply has_field_json_without|].
    intros k Hk. by apply field_json_without.
  - intros auth token e. unfold requestIsAdmin. split_and!.
    + done.
    + simpl. by intros ->.
    + simpl. intros ->. by destruct (String.prefix _ _).
    + simpl. intros -> Hv. destruct (String.prefix _ _); [|done]. simpl.
      destruct (String.eqb token ""); simpl; [done|]. by rewrite Hv.
Qed.

Lemma stock_hidden_from_non_admins_witness :
  body (getSweets (fun _ => Throw "JsonWebTokenError")
          (fun _ db => map_to_list db)
          {["s1" := {| stock := 3; attrs := [("name", VStr "Ladoo")] |}]}
          (VObj []) (Some "Bearer x.y.z"))
  = VArr [VObj [("_id", VStr "s1"); ("name", VStr "Ladoo")]].
Proof.
  destruct (stock_hidden_from_non_admins
              (fun _ => Throw "JsonWebTokenError")
              (fun _ db => map_to_list db)
              {["s1" := {| stock := 3; attrs := [("name", VStr "Ladoo")] |}]}
              (VObj []) (Some "Bearer x.y.z") eq_refl) as (Hbody & _).
  rewrite Hbody. reflexivity.
Defined.

End Redaction.

(** ** Cart: validation before any write *)

Module CartValidation.
Import Cart.

Section Validation.
Context `{Ids : ObjectIdLib}.

Lemma validate_add_inr d raw normalized :
  validate_add d raw = inr normalized ->
  Forall (passes d) raw /\
  normalized = map (fun it => (ToString (itemId it),
                               floor_quantity (quantity it))) raw.
Proof.
  revert normalized. induction raw as [|it raw IH]; intros normalized; simpl.
  - intros [= <-]. by split; [constructor|].
  - destruct (truthy (itemId it)) eqn:Ht; simpl; [|done].
    destruct (isValid (ToString (itemId it))) eqn:Hv; simpl; [|done].
    destruct (findById d (ToString (itemId it))) as [s|] eqn:Hf; [|done].
    destruct (validate_add d raw) as [r|ns]; [done|].
    intros [= <-]. destruct (IH ns eq_refl) as [Hall ->].
    split; [|done]. constructor; [|done]. by split_and!.
Qed.

Lemma validate_replace_inr d raw normalized :
  validate_replace d raw = inr normalized ->
  Forall (passes d) raw /\
  normalized = map (fun it => {| item := ObjectId (ToString (itemId it));
                                 line_quantity := floor_quantity (quantity it) |})
                 raw.
Proof.
  revert normalized. induction raw as [|it raw IH]; intros normalized; simpl.
  - intros [= <-]. by split; [constructor|].
  - destruct (truthy (itemId it)) eqn:Ht; simpl; [|done].
    destruct (isValid (ToString (itemId it))) eqn:Hv; simpl; [|done].
    destruct (findById d (ToString (itemId it))) as [s|] eqn:Hf; [|done].
    destruct (validate_replace d raw) as [r|ns]; [done|].
    intros [= <-]. destruct (IH ns eq_refl) as [Hall ->].
    split; [|done]. constructor; [|done]. by split_and!.
Qed.






End Validation.



End CartValidation.

(** ** Cart: merge and replace *)

Module CartMerge.
Import Cart.

Section Merge.
Context `{Ids : ObjectIdLib}.

Lemma normalize_two_of X :
  X <> "" ->
  normalizePayload (two_of X) = Ok [{| itemId := VStr X; quantity := Int 2 |}].
Proof.
  intros HX%String.eqb_neq.
  unfold normalizePayload, two_of, maybeId, quantity_of. simpl.
  unfold or_. simpl. rewrite HX. simpl. by rewrite HX.
Qed.

Lemma add_two_of d user X s :
  X <> "" -> isValid X = true -> ObjectId X = X -> sweets d !! X = Some s ->
  snd (add d user (two_of X))
  = save d user (match carts d !! user with
                 | None => [{| item := X; line_quantity := 2 |}]
                 | Some items => merge_one items (X, 2)
                 end).
Proof.
  intros HX Hv Hid Hs. unfold add. rewrite (normalize_two_of X HX). simpl.
  apply String.eqb_neq in HX. rewrite HX. simpl.
  rewrite Hv. simpl. unfold findById. rewrite Hid, Hs.
  destruct (carts d !! user) as [items|]; simpl; [|by rewrite Hid].
  unfold merge, merge_one. simpl.
  destruct (list_find _ items) as [[idx ci]|]; [done|]. by rewrite Hid.
Qed.

Lemma replace_two_of d user X s :
  X <> "" -> isValid X = true -> ObjectId X = X -> sweets d !! X = Some s ->
  snd (replace d user (two_of X))
  = save d user [{| item := X; line_quantity := 2 |}].
Proof.
  intros HX Hv Hid Hs. unfold replace. rewrite (normalize_two_of X HX). simpl.
  apply String.eqb_neq in HX. rewrite HX. simpl.
  rewrite Hv. simpl. unfold findById. by rewrite Hid, Hs.
Qed.

Lemma or_default_0 k : or_default (Int k) 0 = k.
Proof. simpl. by destruct (Z.eqb_spec k 0). Qed.

Lemma filter_nil_Forall X (items : list CartLine) :
  filter (fun l => item l = X) items = [] ->
  Forall (fun l => ~ item l = X) items.
Proof.
  induction items as [|l items IH]; [by constructor|].
  rewrite filter_cons. destruct (decide (item l = X)); [done|].
  intros Hnil. constructor; [done|by apply IH].
Qed.

Lemma filter_Forall_nil X (items : list CartLine) :
  Forall (fun l => ~ item l = X) items ->
  filter (fun l => item l = X) items = [].
Proof.
  induction 1 as [|l items Hl _ IH]; [done|].
  rewrite filter_cons. by destruct (decide (item l = X)).
Qed.

(** Merging into a cart that has no line for the sweet appends one;
    merging twice makes that line carry both quantities. *)
Lemma merge_one_absent items X q :
  ObjectId X = X ->
  Forall (fun l => ~ item l = X) items ->
  merge_one items (X, q) = items ++ [{| item := X; line_quantity := q |}].
Proof.
  intros Hid Hno. unfold merge_one.
  rewrite (proj2 (list_find_None _ items) Hno). by rewrite Hid.
Qed.

Lemma merge_one_present items X q i ci :
  list_find (fun l => item l = X) items = Some (i, ci) ->
  merge_one items (X, q)
  = <[i := {| item := X; line_quantity := line_quantity ci + q |}]> items
  /\ list_find (fun l => item l = X)
       (<[i := {| item := X; line_quantity := line_quantity ci + q |}]> items)
     = Some (i, {| item := X; line_quantity := line_quantity ci + q |}).
Proof.
  intros Hfind. unfold merge_one. rewrite Hfind, or_default_0.
  apply list_find_Some in Hfind as (Hi & HX & Hleast). rewrite HX.
  split; [done|]. apply list_find_insert_Some. right; left.
  split_and!; [done|done|by eapply lookup_lt_Some|done|done].
Qed.

(** C4 (as the handlers have it): for a sweet [X] of the catalog, given
    by the string form of its ObjectId, adding [{itemId: X, quantity: 2}]
    twice to a cart that has no line for [X] (or to no cart at all)
    leaves exactly one line for [X], with quantity 4; when the cart
    already has a line for [X] the two calls add 4 to it; replacing twice
    with the same payload leaves the cart with the single line
    [X, quantity 2], as replacing once does. *)
Theorem add_accumulates_replace_overwrites
    (d : db) (user X : string) (s : Sweet) :
  X <> "" -> isValid X = true -> ObjectId X = X -> sweets d !! X = Some s ->
  (lines_of d user X = [] ->
     lines_of (add_twice d user X) user X
     = [{| item := X; line_quantity := 4 |}]) /\
  (forall items i ci,
     carts d !! user = Some items ->
     list_find (fun l => item l = X) items = Some (i, ci) ->
     carts (add_twice d user X) !! user
     = Some (<[i := {| item := X; line_quantity := line_quantity ci + 4 |}]>
               items)) /\
  carts (replace_twice d user X) !! user
  = Some [{| item := X; line_quantity := 2 |}] /\
  replace_twice d user X = snd (replace d user (two_of X)).
Proof.
  intros HX Hv Hid Hs.
  assert (forall d1 : db, sweets d1 = sweets d -> sweets d1 !! X = Some s)
    as Hsame by (by intros d1 ->).
  unfold add_twice, replace_twice, lines_of.
  rewrite (add_two_of d user X s), (replace_two_of d user X s) by done.
  rewrite (add_two_of _ user X s), (replace_two_of _ user X s)
    by (try apply Hsame; done).
  unfold save. cbn [carts sweets]. rewrite !lookup_insert_eq.
  cbn [default from_option]. split_and!.
  - destruct (carts d !! user) as [items|]; cbn [default from_option].
    + intros Hno%filter_nil_Forall.
      rewrite (merge_one_absent items X 2 Hid Hno).
      destruct (merge_one_present
                  (items ++ [{| item := X; line_quantity := 2 |}]) X 2
                  (length items) {| item := X; line_quantity := 2 |})
        as [-> _].
      { rewrite list_find_app_r by (by apply list_find_None).
        simpl. by rewrite decide_True by done. }
      rewrite insert_app_r_alt, Nat.sub_diag by lia. simpl.
      rewrite filter_app, (filter_Forall_nil X items Hno). simpl.
      rewrite filter_cons, decide_True by done. done.
    + intros _. unfold merge_one. simpl. rewrite decide_True by done. simpl.
      rewrite filter_cons, decide_True by done. done.
  - intros items i ci -> Hfind.
    destruct (merge_one_present items X 2 i ci Hfind) as [-> Hfind'].
    destruct (merge_one_present _ X 2 i _ Hfind') as [-> _]. simpl.
    rewrite list_insert_insert_eq. do 3 f_equal. lia.
  - done.
  - unfold save. simpl. by rewrite insert_insert_eq.
Qed.

End Merge.

Lemma add_accumulates_replace_overwrites_witness :
  lines_of (add_twice (Ids := Hex24.lib)
              {| sweets := sweets Examples.shop; carts := ∅ |}
              "ana" Examples.ladoo)
    "ana" Examples.ladoo
  = [{| item := Examples.ladoo; line_quantity := 4 |}] /\
  carts (replace_twice (Ids := Hex24.lib) Examples.shop
           "ana" Examples.ladoo) !! "ana"
  = Some [{| item := Examples.ladoo; line_quantity := 2 |}].
Proof.
  destruct (add_accumulates_replace_overwrites (Ids := Hex24.lib)
              {| sweets := sweets Examples.shop; carts := ∅ |}
              "ana" Examples.ladoo
              {| stock := 10; attrs := [("name", VStr "Ladoo")] |})
    as (Hadd & _ & _ & _); [done|reflexivity|reflexivity|reflexivity|].
  destruct (add_accumulates_replace_overwrites (Ids := Hex24.lib)
              Examples.shop "ana" Examples.ladoo
              {| stock := 10; attrs := [("name", VStr "Ladoo")] |})
    as (_ & _ & Hreplace & _); [done|reflexivity|reflexivity|reflexivity|].
  split; [apply Hadd; reflexivity|exact Hreplace].
Defined.

(** C4 as stated does not hold for every cart: in a cart that already
    holds one of the sweet, the two calls leave a line with quantity 5. *)
Lemma add_twice_to_filled_cart :
  lines_of (add_twice (Ids := Hex24.lib) Examples.shop
              "ana" Examples.ladoo)
    "ana" Examples.ladoo
  = [{| item := Examples.ladoo; line_quantity := 5 |}] /\
  lines_of (add_twice (Ids := Hex24.lib) Examples.shop
              "ana" Examples.ladoo)
    "ana" Examples.ladoo
  <> [{| item := Examples.ladoo; line_quantity := 4 |}].
Proof.
  assert (lines_of (add_twice (Ids := Hex24.lib) Examples.shop
                      "ana" Examples.ladoo)
            "ana" Examples.ladoo
          = [{| item := Examples.ladoo; line_quantity := 5 |}]) as Hfive
    by (vm_compute; reflexivity).
  split; [exact Hfive|]. rewrite Hfive. discriminate.
Qed.

(** With the sample ObjectId library the string form of an id is in
    lower case: an id sent in upper case never matches the line it
    created, and the two calls leave two lines of 2. *)
Lemma add_twice_upper_case_id :
  lines_of (add_twice (Ids := Hex24.lib)
              {| sweets := sweets Examples.shop; carts := ∅ |}
              "ana" "64B7F0A1C2D3E4F5A6B7C8D9")
    "ana" Examples.ladoo
  = [{| item := Examples.ladoo; line_quantity := 2 |};
     {| item := Examples.ladoo; line_quantity := 2 |}].
Proof. vm_compute. reflexivity. Qed.

End CartMerge.

(** ** Cart: normalisation of the payload *)

Module CartNormalize.
Import Cart.

(** The id that [maybeId] picks is the first truthy one of the fields
    [itemId], [item] and [_id] of the entry itself: when [item] is an
    object the chain stops at that object, and [item._id] is never read. *)
Lemma maybeId_object fs :
  maybeId (VObj fs) =
    Ok (if truthy (field "itemId" fs) then field "itemId" fs
        else if truthy (field "item" fs) then field "item" fs
        else if truthy (field "_id" fs) then field "_id" fs
        else field "item" fs).
Proof.
  unfold maybeId, or_, and_. simpl.
  destruct (truthy (field "itemId" fs)); [done|].
  destruct (truthy (field "item" fs)) eqn:Hitem; [done|].
  destruct (truthy (field "_id" fs)); [done|]. simpl. by rewrite ?Hitem.
Qed.

(** A payload that is falsy, or an object with no [items] array and no
    id of its own, normalises to the empty list. *)
Lemma normalizePayload_unrecognized body :
  truthy body = false \/
  (exists fs, body = VObj fs /\
              (forall xs, field "items" fs <> VArr xs) /\
              truthy (field "itemId" fs) = false /\
              truthy (field "item" fs) = false /\
              truthy (field "_id" fs) = false) ->
  normalizePayload body = Ok [].
Proof.
  intros [Hfalsy|(fs & -> & Hitems & Ha & Hb & Hc)]; unfold normalizePayload.
  - by rewrite Hfalsy.
  - simpl. rewrite maybeId_object, Ha, Hb, Hc. simpl. rewrite Hb.
    destruct (field "items" fs) as [| | | | | |xs] eqn:Hi; try done.
    by destruct (Hitems xs).
Qed.

(** A quantity that is absent, or that is 0, is read as 1. *)
Lemma quantity_of_default fs :
  truthy (field "quantity" fs) = false ->
  truthy (field "qty" fs) = false ->
  quantity_of (VObj fs) = Ok (Int 1).
Proof.
  intros Hq Hqty. unfold quantity_of, or_. simpl. by rewrite Hq, Hqty.
Qed.

Section Floor.
Context `{Ids : ObjectIdLib}.

(** The quantities that the handlers store are at least 1. *)
Lemma stored_quantities_floored d raw :
  (forall normalized, validate_add d raw = inr normalized ->
     Forall (fun e => 1 <= snd e) normalized) /\
  (forall normalized, validate_replace d raw = inr normalized ->
     Forall (fun l => 1 <= line_quantity l) normalized).
Proof.
  split; intros normalized Hv.
  - apply CartValidation.validate_add_inr in Hv as [_ ->].
    apply Forall_fmap, Forall_forall. intros it _. apply floor_quantity_ge_1.
  - apply CartValidation.validate_replace_inr in Hv as [_ ->].
    apply Forall_fmap, Forall_forall. intros it _. apply floor_quantity_ge_1.
Qed.

End Floor.

(** C3, on the payload [{items: [{item: {_id: "A"}, quantity: 3}]}]: the
    entry that [normalizePayload] returns carries the nested object
    itself as its id, not the string ["A"], so that both handlers turn
    the request down as an invalid id; the same entry with the id given
    as a string yields [("A", 3)], and [{}] yields the empty list. *)
Theorem normalizePayload_nested_item :
  normalizePayload nested_item
  = Ok [{| itemId := VObj [("_id", VStr "A")]; quantity := Int 3 |}] /\
  normalizePayload nested_item
  <> Ok [{| itemId := VStr "A"; quantity := Int 3 |}] /\
  ToString (VObj [("_id", VStr "A")]) = "[object Object]" /\
  add (Ids := Hex24.lib) Examples.shop "ana" nested_item
  = (reply 400 "Invalid itemId: [object Object]", Examples.shop) /\
  replace (Ids := Hex24.lib) Examples.shop "ana" nested_item
  = (reply 400 "Invalid itemId", Examples.shop) /\
  normalizePayload
    (VObj [("items",
            VArr [VObj [("item", VStr "A"); ("quantity", VNum (Int 3))]])])
  = Ok [{| itemId := VStr "A"; quantity := Int 3 |}] /\
  normalizePayload (VObj []) = Ok [].
Proof.
  split_and!; try reflexivity. discriminate.
Qed.

End CartNormalize.

(** ** Cart: what the handlers keep and what they leave alone *)

Module CartExtras.
Import Cart CartRead.

Section Extras.
Context `{Ids : ObjectIdLib}.


Lemma validate_replace_passes d raw :
  Forall (passes d) raw -> validate_replace d raw = inr (map line_of raw).
Proof.
  induction 1 as [|it raw (Ht & Hv & [s Hs]) _ IH]; simpl; [done|].
  by rewrite Ht, Hv, Hs, IH.
Qed.

Lemma validate_add_inl d raw r :
  validate_add d raw = inl r -> status r = 400 \/ status r = 404.
Proof.
  revert r. induction raw as [|it raw IH]; intros r; simpl; [done|].
  destruct (truthy (itemId it)); simpl; [|intros [= <-]; by left].
  destruct (isValid _); simpl; [|intros [= <-]; by left].
  destruct (findById d _); [|intros [= <-]; by right].
  destruct (validate_add d raw) as [r'|ns]; [|done].
  intros [= <-]. by apply IH.
Qed.

Lemma validate_replace_inl d raw r :
  validate_replace d raw = inl r -> status r = 400 \/ status r = 404.
Proof.
  revert r. induction raw as [|it raw IH]; intros r; simpl; [done|].
  destruct (truthy (itemId it)); simpl; [|intros [= <-]; by left].
  destruct (isValid _); simpl; [|intros [= <-]; by left].
  destruct (findById d _); [|intros [= <-]; by right].
  destruct (validate_replace d raw) as [r'|ns]; [|done].
  intros [= <-]. by apply IH.
Qed.


(** Each handler answers with the database as it was, or with the cart
    of the user saved anew. *)
Lemma add_saves d user body :
  snd (add d user body) = d \/
  exists items, snd (add d user body) = save d user items.
Proof.
  unfold add. destruct (normalizePayload body) as [raw|e]; simpl; [|by left].
  destruct raw as [|it raw]; [by left|].
  destruct (validate_add d (it :: raw)) as [r|ns]; [by left|].
  right. destruct (carts d !! user); simpl; eauto.
Qed.

Lemma replace_saves d user body :
  snd (replace d user body) = d \/
  exists items, snd (replace d user body) = save d user items.
Proof.
  unfold replace. destruct (normalizePayload body) as [raw|e]; simpl;
    [|by left].
  destruct (validate_replace d raw) as [r|ns]; [by left|]. right. eauto.
Qed.

Lemma remove_saves d user id :
  snd (remove d user id) = d \/
  exists items, snd (remove d user id) = save d user items.
Proof.
  unfold remove. destruct (isValid id); simpl; [|by left].
  destruct (carts d !! user); simpl; [|by left]. right. eauto.
Qed.

Lemma save_frame d user d' :
  d' = d \/ (exists items, d' = save d user items) ->
  sweets d' = sweets d /\
  forall u, u <> user -> carts d' !! u = carts d !! u.
Proof.
  intros [->|[its ->]]; [done|]. split; [done|].
  intros u Hu. simpl. by rewrite lookup_insert_ne.
Qed.

(** X3: adding to, replacing and removing from the cart of a user never
    touches the sweets collection, nor the cart of any other user. *)
Theorem cart_handlers_frame (d : db) (user : string) (body : value)
    (id : string) :
  (sweets (snd (add d user body)) = sweets d /\
   forall u, u <> user -> carts (snd (add d user body)) !! u = carts d !! u) /\
  (sweets (snd (replace d user body)) = sweets d /\
   forall u, u <> user ->
             carts (snd (replace d user body)) !! u = carts d !! u) /\
  (sweets (snd (remove d user id)) = sweets d /\
   forall u, u <> user -> carts (snd (remove d user id)) !! u = carts d !! u).
Proof.
  split_and!.
  - apply (save_frame d user), add_saves.
  - apply (save_frame d user), add_saves.
  - apply (save_frame d user), replace_saves.
  - apply (save_frame d user), replace_saves.
  - apply (save_frame d user), remove_saves.
  - apply (save_frame d user), remove_saves.
Qed.


(** X9: a payload that normalises to the empty list empties the cart
    when it is sent to replace (answer 200), and is turned down by add
    (answer 400, nothing written). *)
Theorem empty_payload_clears_on_replace (d : db) (user : string)
    (body : value) :
  normalizePayload body = Ok [] ->
  replace d user body = (cart_reply 200 (save d user []) user [],
                         save d user []) /\
  carts (snd (replace d user body)) !! user = Some [] /\
  add d user body = (reply 400 "No items provided", d).
Proof.
  intros Hraw. unfold add, replace. rewrite Hraw. simpl.
  by rewrite lookup_insert_eq.
Qed.

End Extras.


Lemma empty_payload_clears_on_replace_witness :
  carts (snd (replace (Ids := Hex24.lib) Examples.shop "ana" (VObj [])))
    !! "ana" = Some [] /\
  add (Ids := Hex24.lib) Examples.shop "ana" (VObj [])
  = (reply 400 "No items provided", Examples.shop).
Proof.
  destruct (empty_payload_clears_on_replace (Ids := Hex24.lib)
              Examples.shop "ana" (VObj []) eq_refl) as (_ & Hcart & Hadd).
  split; [exact Hcart|exact Hadd].
Defined.

End CartExtras.

(** ** Cart: invariants of the stored carts *)

Module CartInvariants.
Import Cart CartRead CartExtras.






Lemma filter_out_idempotent (items : list CartLine) id :
  filter (fun l => item l <> id) (filter (fun l => item l <> id) items)
  = filter (fun l => item l <> id) items.
Proof.
  induction items as [|l items IH]; [done|].
  rewrite filter_cons. destruct (decide (item l <> id)) as [Hne|_]; [|done].
  rewrite filter_cons, decide_True by done. by rewrite IH.
Qed.

Section Invariants.
Context `{Ids : ObjectIdLib}.

(** What a call to add does, in full. *)
Lemma add_cases d user body :
  (snd (add d user body) = d /\
   (status (fst (add d user body)) = 400 \/
    status (fst (add d user body)) = 404 \/
    status (fst (add d user body)) = 500)) \/
  exists raw,
    normalizePayload body = Ok raw /\ raw <> [] /\ Forall (passes d) raw /\
    let items' :=
      match carts d !! user with
      | None => map line_of raw
      | Some items =>
          merge items (map (fun it => (ToString (itemId it),
                                       floor_quantity (quantity it))) raw)
      end in
    add d user body
    = (cart_reply (match carts d !! user with Some _ => 200 | None => 201 end)
         (save d user items') user items',
       save d user items').
Proof.
  unfold add. destruct (normalizePayload body) as [raw|e]; simpl;
    [|left; auto].
  destruct raw as [|it raw]; [left; auto|].
  destruct (validate_add d (it :: raw)) as [r|ns] eqn:Hv.
  - left. split; [done|]. apply validate_add_inl in Hv as [?|?]; auto.
  - right. exists (it :: raw).
    apply CartValidation.validate_add_inr in Hv as [Hall ->].
    split_and!; [done|done|done|].
    destruct (carts d !! user); simpl; [done|]. by rewrite map_map.
Qed.

Lemma replace_cases d user body :
  (snd (replace d user body) = d /\
   (status (fst (replace d user body)) = 400 \/
    status (fst (replace d user body)) = 404 \/
    status (fst (replace d user body)) = 500)) \/
  exists raw,
    normalizePayload body = Ok raw /\ Forall (passes d) raw /\
    replace d user body
    = (cart_reply 200 (save d user (map line_of raw)) user (map line_of raw),
       save d user (map line_of raw)).
Proof.
  unfold replace. destruct (normalizePayload body) as [raw|e]; simpl;
    [|left; auto].
  destruct (validate_replace d raw) as [r|ls] eqn:Hv.
  - left. split; [done|]. apply validate_replace_inl in Hv as [?|?]; auto.
  - right. exists raw.
    apply CartValidation.validate_replace_inr in Hv as [Hall ->]. done.
Qed.



Lemma merge_one_positive items id q :
  1 <= q ->
  Forall (fun l => 1 <= line_quantity l) items ->
  Forall (fun l => 1 <= line_quantity l) (merge_one items (id, q)).
Proof.
  intros Hq Hall. unfold merge_one.
  destruct (list_find _ items) as [[idx ci]|] eqn:Hfind.
  - apply list_find_Some in Hfind as (Hi & _ & _).
    apply Forall_insert; [done|]. cbn [line_quantity].
    rewrite CartMerge.or_default_0.
    pose proof (Forall_lookup_1 _ _ _ _ Hall Hi) as Hci. simpl in Hci. lia.
  - apply Forall_app. split; [done|]. by repeat constructor.
Qed.

Lemma merge_positive items normalized :
  Forall (fun e => 1 <= snd e) normalized ->
  Forall (fun l => 1 <= line_quantity l) items ->
  Forall (fun l => 1 <= line_quantity l) (merge items normalized).
Proof.
  unfold merge. intros Hns. revert items.
  induction Hns as [|[id q] ns Hq _ IH]; intros items Hall;
    cbn [fold_left]; [done|].
  apply IH. by apply merge_one_positive.
Qed.



(** X4: if every line of every stored cart has a quantity of at least 1,
    this is still so after add, after replace and after remove, whatever
    the request. *)
Theorem handlers_keep_quantities_positive (d : db) (user : string)
    (body : value) (id : string) :
  quantities_positive d ->
  quantities_positive (snd (add d user body)) /\
  quantities_positive (snd (replace d user body)) /\
  quantities_positive (snd (remove d user id)).
Proof.
  intros Hpos.
  assert (forall items, Forall (fun l => 1 <= line_quantity l) items ->
                        quantities_positive (save d user items)) as Hsave.
  { intros items Hitems u its. simpl.
    destruct (decide (user = u)) as [->|Hne].
    - rewrite lookup_insert_eq. by intros [= <-].
    - rewrite lookup_insert_ne by done. apply Hpos. }
  assert (forall raw, Forall (fun l => 1 <= line_quantity l)
                        (map line_of raw)) as Hlines.
  { intros raw. apply Forall_fmap, Forall_forall. intros it _.
    apply floor_quantity_ge_1. }
  split_and!.
  - destruct (add_cases d user body) as [[-> _]|(raw & _ & _ & _ & Hadd)];
      [done|]. simpl in Hadd. rewrite Hadd. simpl. apply Hsave.
    destruct (carts d !! user) as [items|] eqn:Hcart; [|apply Hlines].
    apply merge_positive; [|by eapply Hpos].
    apply Forall_fmap, Forall_forall. intros it _. apply floor_quantity_ge_1.
  - destruct (replace_cases d user body) as [[-> _]|(raw & _ & _ & ->)];
      [done|]. apply Hsave, Hlines.
  - unfold remove. destruct (isValid id); simpl; [|done].
    destruct (carts d !! user) as [items|] eqn:Hcart; simpl; [|done].
    apply Hsave. pose proof (Hpos _ _ Hcart) as Hall.
    apply Forall_forall. intros l [_ Hl]%list_elem_of_filter.
    by apply (proj1 (Forall_forall _ _) Hall).
Qed.




(** X2: remove answers 400 for an id that is not well formed and 404
    when the user has no cart, writing nothing in either case; and
    removing the same sweet a second time changes nothing more. *)
Theorem remove_is_idempotent (d : db) (user id : string) :
  (isValid id = false -> remove d user id = (reply 400 "Invalid itemId", d)) /\
  (isValid id = true -> carts d !! user = None ->
     remove d user id = (reply 404 "Cart not found", d)) /\
  snd (remove (snd (remove d user id)) user id) = snd (remove d user id).
Proof.
  unfold remove. destruct (isValid id) eqn:Hv; simpl.
  - split_and!; [done|by intros _ ->|].
    destruct (carts d !! user) as [items|] eqn:Hcart; simpl.
    + rewrite ?Hv. simpl. rewrite lookup_insert_eq. unfold save. simpl.
      by rewrite insert_insert_eq, filter_out_idempotent.
    + by rewrite ?Hv, ?Hcart.
  - split_and!; [done|done|]. by rewrite ?Hv.
Qed.

(** X8: what the cart routes answer on success is what a read of the
    cart returns right after: the body of a successful add, replace or
    remove is the body of the [GET] that follows it. *)
Theorem cart_reads_its_writes (d : db) (user : string) (sent : value)
    (id : string) :
  (status (fst (add d user sent)) = 200 \/
   status (fst (add d user sent)) = 201 ->
   body (getCart (snd (add d user sent)) user)
   = body (fst (add d user sent))) /\
  (status (fst (replace d user sent)) = 200 ->
   body (getCart (snd (replace d user sent)) user)
   = body (fst (replace d user sent))) /\
  (status (fst (remove d user id)) = 200 ->
   body (getCart (snd (remove d user id)) user)
   = body (fst (remove d user id))).
Proof.
  split_and!.
  - intros Hok.
    destruct (add_cases d user sent) as [[_ Hs]|(raw & _ & _ & _ & Hadd)];
      [lia|].
    simpl in Hadd. rewrite Hadd. unfold getCart. simpl.
    by rewrite lookup_insert_eq.
  - intros Hok.
    destruct (replace_cases d user sent) as [[_ Hs]|(raw & _ & _ & ->)];
      [lia|].
    unfold getCart. simpl. by rewrite lookup_insert_eq.
  - unfold remove. destruct (isValid id); simpl; [|done].
    destruct (carts d !! user) as [items|]; simpl; [|done].
    intros _. unfold getCart. simpl. by rewrite lookup_insert_eq.
Qed.

End Invariants.

Lemma shop_quantities_positive : quantities_positive Examples.shop.
Proof.
  intros u items Hu. unfold Examples.shop in Hu. simpl in Hu.
  apply lookup_singleton_Some in Hu as [_ <-]. repeat constructor. simpl. lia.
Defined.

Lemma handlers_keep_quantities_positive_witness :
  quantities_positive
    (snd (add (Ids := Hex24.lib) Examples.shop "ana" (two_of Examples.ladoo))).
Proof.
  destruct (handlers_keep_quantities_positive (Ids := Hex24.lib)
              Examples.shop "ana" (two_of Examples.ladoo) Examples.ladoo
              shop_quantities_positive) as (Hadd & _).
  exact Hadd.
Defined.




End CartInvariants.

(** ** Cart: payloads with an [items] array *)

Module CartBatches.
Import Cart CartRead.






End CartBatches.

(** ** The sync variant: [coerceCartItems] *)

Module SyncFacts.
Import Sync.

Section Facts.
Variable construct : string -> result string.




End Facts.


End SyncFacts.

(** ** Inventory: frame, round trips and composition *)

Module LedgerExtras.
Import Sweets SweetsAdmin.

(** A purchase leaves the collection as it was, or takes [q] units from
    the stock of the sweet. *)
Lemma purchase_result db id body :
  (snd (purchase db id body) = db /\
   forall q sweet, fst (purchase db id body) <> Purchased id q sweet) \/
  exists s q,
    db !! id = Some s /\ 0 < q /\ q <= stock s /\ requested body = Ok q /\
    purchase db id body
    = (Purchased id q (with_stock s (stock s - q)),
       <[id := with_stock s (stock s - q)]> db).
Proof.
  unfold purchase, purchase_write.
  destruct (requested body) as [q|e] eqn:Hreq; simpl; [|by left].
  destruct (Z.leb_spec q 0) as [|Hq]; simpl; [by left|].
  unfold findOneAndUpdate, purchase_read.
  destruct (db !! id) as [s|] eqn:Hs; simpl; [|left; by rewrite Hs].
  destruct (Z.leb_spec q (stock s)) as [Hle|]; simpl;
    [|left; by rewrite Hs].
  right. by exists s, q.
Qed.


Lemma restock_result db id body :
  snd (restock db id body) = db \/
  exists s q,
    db !! id = Some s /\ 0 < q /\
    restock db id body
    = (Restocked id (with_stock s (stock s + q)),
       <[id := with_stock s (stock s + q)]> db).
Proof.
  unfold restock. destruct (get body "quantity") as [quantity|e]; simpl;
    [|by left].
  destruct (ToNumber quantity) as [|q]; [by left|].
  destruct (negb (truthy quantity)); simpl; [by left|].
  destruct (Z.leb_spec q 0); [by left|]. unfold findByIdAndUpdate.
  destruct (db !! id) as [s|] eqn:Hs; [|by left].
  right. by exists s, q.
Qed.

(** X12: whatever the request, a purchase or a restock of the sweet [id]
    leaves every other document as it was, creates and deletes no
    document, and changes nothing but the stock of [id]: a purchase can
    only lower it, and only with the outcome [Purchased]; a restock can
    only raise it. *)
Theorem purchase_and_restock_frame (db : gmap string Sweet) (id : string)
    (body : value) :
  ((forall id', id' <> id -> snd (purchase db id body) !! id' = db !! id') /\
   dom (snd (purchase db id body)) = dom db /\
   (forall s', snd (purchase db id body) !! id = Some s' ->
      exists s, db !! id = Some s /\ attrs s' = attrs s /\
                stock s' <= stock s) /\
   (snd (purchase db id body) <> db ->
      exists q sweet, fst (purchase db id body) = Purchased id q sweet)) /\
  ((forall id', id' <> id -> snd (restock db id body) !! id' = db !! id') /\
   dom (snd (restock db id body)) = dom db /\
   (forall s', snd (restock db id body) !! id = Some s' ->
      exists s, db !! id = Some s /\ attrs s' = attrs s /\
                stock s <= stock s') /\
   (snd (restock db id body) <> db ->
      exists sweet, fst (restock db id body) = Restocked id sweet)).
Proof.
  split.
  - destruct (purchase_result db id body)
      as [[-> _]|(s & q & Hs & Hq & Hle & _ & ->)].
    + split_and!; [done|done| |done].
      intros s' Hs'. exists s'. split_and!; [done|done|lia].
    + simpl. split_and!.
      * intros id' Hne. by rewrite lookup_insert_ne.
      * rewrite dom_insert_L. apply elem_of_dom_2 in Hs.
        apply set_eq. intros x. rewrite elem_of_union, elem_of_singleton.
        split; [by intros [->|?]|by right].
      * intros s'. rewrite lookup_insert_eq. intros [= <-].
        exists s. simpl. split_and!; [done|done|lia].
      * intros _. eauto.
  - destruct (restock_result db id body) as [->|(s & q & Hs & Hq & ->)].
    + split_and!; [done|done| |done].
      intros s' Hs'. exists s'. split_and!; [done|done|lia].
    + simpl. split_and!.
      * intros id' Hne. by rewrite lookup_insert_ne.
      * rewrite dom_insert_L. apply elem_of_dom_2 in Hs.
        apply set_eq. intros x. rewrite elem_of_union, elem_of_singleton.
        split; [by intros [->|?]|by right].
      * intros s'. rewrite lookup_insert_eq. intros [= <-].
        exists s. simpl. split_and!; [done|done|lia].
      * intros _. eauto.
Qed.










End LedgerExtras.

(** ** Sweets and carts together *)

Module Catalog.
Import Cart CartRead SweetsAdmin.



End Catalog.

(** ** Listing for admins *)

Module AdminListing.
Import Sweets Redaction.

Lemma field_json_snoc k v fs :
  has_field k fs = false -> v <> VUndef ->
  field k (json_fields (fs ++ [(k, v)])) = to_json v.
Proof.
  intros Hno Hv. induction fs as [|[k' x] fs IH]; simpl in *.
  - rewrite json_fields_cons. destruct v; try done; simpl;
      by rewrite String.eqb_refl.
  - destruct (String.eqb_spec k k') as [|Hne]; [done|]. simpl in Hno.
    rewrite json_fields_cons.
    destruct x; try (by apply IH); simpl;
      (destruct (String.eqb_spec k k'); [done|]); by apply IH.
Qed.

(** X18: in a listing or search answered to an admin every item is the
    stored item in full, and its [stock] field is the stock of the
    document. *)
Theorem admin_listing_shows_stock
    (jwt_verify : string -> result value)
    (find : value -> gmap string Sweet -> list (string * Sweet))
    (db : gmap string Sweet) (query : value) (authorization : option string) :
  truthy (requestIsAdmin jwt_verify authorization) = true ->
  getSweets jwt_verify find db query authorization
  = {| status := 200;
       body := VArr (map (fun d => VObj (json_fields
                                           (toObject (fst d) (snd d))))
                       (find query db)) |} /\
  forall id s, has_field "stock" (attrs s) = false ->
    field "stock" (json_fields (toObject id s)) = VNum (Int (stock s)).
Proof.
  intros Hrole. split.
  - unfold getSweets, listing, hideStockForNonAdmin. rewrite Hrole.
    by rewrite to_json_objects, !map_map.
  - intros id s Hno. unfold toObject. rewrite json_fields_cons. simpl.
    by rewrite (field_json_snoc "stock" (VNum (Int (stock s)))).
Qed.

Lemma admin_listing_shows_stock_witness :
  body (getSweets (fun _ => Ok (VObj [("role", VStr "admin")]))
          (fun _ db => map_to_list db)
          {["s1" := {| stock := 3; attrs := [("name", VStr "Ladoo")] |}]}
          (VObj []) (Some "Bearer x.y.z"))
  = VArr [VObj [("_id", VStr "s1"); ("name", VStr "Ladoo");
                ("stock", VNum (Int 3))]].
Proof.
  destruct (admin_listing_shows_stock
              (fun _ => Ok (VObj [("role", VStr "admin")]))
              (fun _ db => map_to_list db)
              {["s1" := {| stock := 3; attrs := [("name", VStr "Ladoo")] |}]}
              (VObj []) (Some "Bearer x.y.z") eq_refl) as (Hbody & _).
  rewrite Hbody. reflexivity.
Defined.

End AdminListing.

(** ** Connection supervision: the whole run of the loop *)

Module SupervisionExtras.
Import App Supervision.




(** The waits of a run of failures that starts after [a] attempts. *)
Lemma failures_schedule env s :
  Forall (fun e => fst e = false) env ->
  looping s = true ->
  connectWithRetry env s
  = ({| dbConnected := match env with [] => dbConnected s | _ => false end;
        attempt := attempt s + Z.of_nat (length env);
        looping := true |},
     imap (fun i e => backoff (attempt s + Z.of_nat i + 1) + jitter (snd e))
       env).
Proof.
  intros Hfail. revert s.
  induction Hfail as [|[c r] env Hc _ IH]; intros s Hloop.
  - simpl. destruct s as [d a l]. simpl in *. subst l. f_equal. f_equal. lia.
  - simpl in Hc. subst c. simpl. rewrite Hloop. unfold round_of_loop.
    simpl. rewrite IH by done. simpl. f_equal.
    + f_equal; [by destruct env|lia].
    + f_equal; [f_equal; f_equal; lia|].
      apply imap_ext. intros i e _. simpl. do 2 f_equal. lia.
Qed.



(** X21: the delay doubles from 2 seconds up to the fifth attempt and is
    the cap of 60 seconds from the sixth attempt on; with draws in
    [0, 1), every wait of a run of failures lies between 2 and 61
    seconds. *)
Theorem backoff_closed_form (n : Z) (env : list (bool * Q)) :
  1 <= n ->
  Forall (fun e => fst e = false /\ (0 <= snd e)%Q /\ (snd e < 1)%Q) env ->
  (n <= 5 -> backoff n = 2000 * 2 ^ (n - 1)) /\
  (6 <= n -> backoff n = 60000) /\
  Forall (fun w => 2000 <= w <= 61000) (snd (connectWithRetry env start)).
Proof.
  intros Hn Henv. split_and!.
  - intros H5. unfold backoff, baseDelay.
    assert (2 ^ (n - 1) <= 2 ^ 4) by (apply Z.pow_le_mono_r; lia).
    change (2 ^ 4) with 16 in *. lia.
  - intros H6. unfold backoff, baseDelay.
    assert (2 ^ 5 <= 2 ^ (n - 1)) by (apply Z.pow_le_mono_r; lia).
    change (2 ^ 5) with 32 in *. lia.
  - rewrite failures_schedule;
      [|by eapply Forall_impl; [exact Henv|intros e (? & _)]|done].
    simpl. apply Forall_forall. intros w Hw.
    apply list_elem_of_lookup in Hw as [i Hw].
    rewrite list_lookup_imap in Hw.
    destruct (env !! i) as [e|] eqn:He; [|done]. simpl in Hw.
    injection Hw as <-.
    pose proof (Forall_lookup_1 _ _ _ _ Henv He) as (_ & Hlo & Hhi).
    pose proof (jitter_range (snd e) Hlo Hhi).
    pose proof (backoff_le_cap (Z.of_nat i + 1)).
    pose proof (backoff_monotone 1 (Z.of_nat i + 1)).
    replace (0 + Z.of_nat i + 1) with (Z.of_nat i + 1) by lia.
    change (backoff 1) with 2000 in *. lia.
Qed.

Lemma backoff_closed_form_witness :
  backoff 9 = 60000 /\
  Forall (fun w => 2000 <= w <= 61000)
    (snd (connectWithRetry (replicate 8 (false, (1 # 3)%Q)) start)).
Proof.
  destruct (backoff_closed_form 9 (replicate 8 (false, (1 # 3)%Q)))
    as (_ & Hcap & Hwaits).
  - lia.
  - apply Forall_forall. intros e [-> _]%elem_of_replicate. simpl.
    split_and!; [reflexivity|lra|lra].
  - split; [apply Hcap; lia|exact Hwaits].
Defined.

(** X22: at every point of a run from the start, whatever the
    environment answers, the flag is set exactly when the loop has
    stopped, the attempts counted are at most the answers received, and
    the loop has slept once per failed attempt. *)
Theorem loop_invariants (env : list (bool * Q)) :
  looping (fst (connectWithRetry env start))
  = negb (dbConnected (fst (connectWithRetry env start))) /\
  0 <= attempt (fst (connectWithRetry env start)) <= Z.of_nat (length env) /\
  Z.of_nat (length (snd (connectWithRetry env start)))
  = attempt (fst (connectWithRetry env start))
    - (if dbConnected (fst (connectWithRetry env start)) then 1 else 0).
Proof.
  assert (forall s,
            looping s = negb (dbConnected s) ->
            let r := connectWithRetry env s in
            looping (fst r) = negb (dbConnected (fst r)) /\
            attempt s <= attempt (fst r) <= attempt s + Z.of_nat (length env) /\
            Z.of_nat (length (snd r))
            = attempt (fst r) - attempt s
              - (if dbConnected (fst r) then 1 else 0)
              + (if dbConnected s then 1 else 0)) as Hgen.
  { induction env as [|[c r] env IH]; intros s Hs; simpl.
    - split_and!; [done|lia..].
    - destruct (looping s) eqn:Hl; simpl.
      + destruct (dbConnected s) eqn:Hd; [done|].
        destruct c; unfold round_of_loop; simpl.
        * specialize (IH {| dbConnected := true; attempt := attempt s + 1;
                            looping := false |} eq_refl).
          destruct (connectWithRetry env _) as [s' ws] eqn:Hrun.
          assert (s' = {| dbConnected := true; attempt := attempt s + 1;
                          looping := false |} /\ ws = []) as [-> ->].
          { destruct env as [|[c' r'] env']; simpl in Hrun;
              by injection Hrun as <- <-. }
          simpl. split_and!; [done|lia..].
        * specialize (IH {| dbConnected := false; attempt := attempt s + 1;
                            looping := true |} eq_refl).
          destruct (connectWithRetry env _) as [s' ws]. simpl in *.
          destruct IH as (H1 & H2 & H3).
          split_and!; [done|lia|lia|]. destruct (dbConnected s'); lia.
      + rewrite Hl. destruct (dbConnected s); [|done]. simpl.
        split_and!; [done|lia..]. }
  destruct (Hgen start eq_refl) as (H1 & H2 & H3). simpl in *.
  split_and!; [done|lia..].
Qed.

End SupervisionExtras.

(** ** Registration and login *)

Module AuthFacts.
Import Auth.

Section Facts.
Variable findOne : value -> list User -> option User.
Variable create : value -> value -> value -> value -> result User.
Variable matchPassword : User -> value -> result bool.
Variable sign : value -> string.

(** X23: a login that is turned down for its credentials gets the same
    answer whether no user has the e-mail or the password is wrong:
    every answer with status 400 is [Invalid email or password]. *)
Theorem login_failures_alike (users : list User) (payload : value) :
  status (login findOne matchPassword sign users payload) = 400 ->
  login findOne matchPassword sign users payload
  = reply 400 "Invalid email or password" /\
  forall mail password,
    get payload "email" = Ok mail ->
    get payload "password" = Ok password ->
    (findOne mail users = None \/
     exists user, findOne mail users = Some user /\
                  matchPassword user password = Ok false) ->
    login findOne matchPassword sign users payload
    = reply 400 "Invalid email or password".
Proof.
  intros Hstatus. split.
  - revert Hstatus. unfold login.
    destruct (get payload "email") as [mail|e]; simpl; [|done].
    destruct (get payload "password") as [password|e]; simpl; [|done].
    destruct (findOne mail users) as [user|]; simpl; [|done].
    destruct (matchPassword user password) as [[]|e]; simpl; done.
  - intros mail password Hmail Hpw Hwhy. unfold login.
    rewrite Hmail, Hpw. simpl.
    destruct Hwhy as [->|(user & -> & Hno)]; [done|]. simpl.
    by rewrite Hno.
Qed.



End Facts.

Lemma login_failures_alike_witness :
  login MoreExamples.by_email MoreExamples.same_as_name
    MoreExamples.role_token [] MoreExamples.ana_signs_up
  = reply 400 "Invalid email or password".
Proof.
  destruct (login_failures_alike MoreExamples.by_email
              MoreExamples.same_as_name MoreExamples.role_token []
              MoreExamples.ana_signs_up eq_refl) as [Hsame _].
  exact Hsame.
Defined.


End AuthFacts.
